(** * NewsPulse bot: the query-resolution and rendering pipeline of [news_bot.py]

    A shallow embedding of [get_news] (src/news_bot.py, lines 43-87) and of
    the Python operations it performs on the decoded provider response, of
    the two keyboards, the handlers and [main], followed by the properties
    of the pipeline and of the handlers around it.

    Python [str] values are modelled as [string], holding their UTF-8
    encoding.  The four characters that [get_news] escapes are ASCII, so
    each is one byte that never occurs inside a multi-byte sequence. *)

From Stdlib Require Import String Ascii List ZArith Bool Lia DecimalString.
Import ListNotations.

Local Open Scope string_scope.

Set Warnings "-register-all".

(** ** Exceptions and results *)

(** The exception classes that can surface in [get_news].  [RequestError]
    stands for [httpx.RequestError] and its subclasses (transport errors,
    timeouts, decoding errors, too many redirects).  [HTTPStatusError] is
    the class raised by [raise_for_status]; in httpx it derives from
    [HTTPError], not from [RequestError].  [UnicodeDecodeError] is what
    [json.loads] raises on bytes that are no text; it is a [ValueError],
    as [JSONDecodeError] is, and derives from neither class named at
    line 59.  [DictSliceError] is the exception of slicing a dict: a
    [TypeError] up to Python 3.11 and a [KeyError] from Python 3.12 on.
    [OtherError] is an exception of any further class, given by its name,
    that derives from neither [httpx.RequestError] nor
    [json.JSONDecodeError]. *)
Inductive exn : Set :=
| RequestError
| HTTPStatusError
| JSONDecodeError
| UnicodeDecodeError
| AttributeError
| TypeError
| DictSliceError
| OtherError (class_name : string).

Inductive result (A : Type) : Type :=
| Ok (a : A)
| Raise (e : exn).

Arguments Ok {A} a.
Arguments Raise {A} e.

Definition bind {A B : Type} (c : result A) (k : A -> result B) : result B :=
  match c with
  | Ok a => k a
  | Raise e => Raise e
  end.

Notation "x <- c ;; k" := (bind c (fun x => k))
  (at level 61, c at next level, right associativity).

(** ** Python values decoded from JSON *)

(** What [response.json()] can return.  A float is kept as the text of the
    number together with its truth value, which is all [get_news] can
    observe of it.  A dict is the list of its items in insertion order;
    its keys are distinct. *)
Inductive value : Type :=
| VNone
| VBool (b : bool)
| VInt (n : Z)
| VFloat (nonzero : bool) (lit : string)
| VStr (s : string)
| VList (l : list value)
| VDict (items : list (string * value)).

Fixpoint lookup {A : Type} (key : string) (items : list (string * A)) : option A :=
  match items with
  | [] => None
  | (k, v) :: rest => if String.eqb k key then Some v else lookup key rest
  end.

(** [obj.get(key, default)]: only a dict has the method. *)
Definition get (obj : value) (key : string) (default : value) : result value :=
  match obj with
  | VDict items =>
      Ok (match lookup key items with Some v => v | None => default end)
  | _ => Raise AttributeError
  end.

(** Python truth value, as tested by [not x]. *)
Definition truthy (v : value) : bool :=
  match v with
  | VNone => false
  | VBool b => b
  | VInt n => negb (Z.eqb n 0)
  | VFloat nonzero _ => nonzero
  | VStr s => negb (String.eqb s "")
  | VList l => match l with [] => false | _ => true end
  | VDict items => match items with [] => false | _ => true end
  end.

(** [x[:5]].  Slicing [None], a bool or a number raises [TypeError];
    slicing a dict raises [DictSliceError], whose class depends on the
    version of Python.  The slice of a [str] is taken here on bytes, not
    on code points: [get_news] only tests it for emptiness and then
    iterates over it. *)
Definition slice5 (v : value) : result value :=
  match v with
  | VList l => Ok (VList (firstn 5 l))
  | VStr s => Ok (VStr (substring 0 5 s))
  | VDict _ => Raise DictSliceError
  | _ => Raise TypeError
  end.

(** The items a [for] loop draws from a value.  Those of a [str] are
    one-character strings, whose only use in [get_news] is a call of
    [get] that raises. *)
Definition iterate (v : value) : result (list value) :=
  match v with
  | VList l => Ok l
  | VStr s => Ok (map (fun c => VStr (String c "")) (list_ascii_of_string s))
  | VDict items => Ok (map (fun kv => VStr (fst kv)) items)
  | _ => Raise TypeError
  end.

(** [s.replace(old, new)] where [old] is a single character, as at every
    call in [get_news]. *)
Fixpoint replace (old : ascii) (new : string) (s : string) : string :=
  match s with
  | EmptyString => EmptyString
  | String c s' =>
      (if Ascii.eqb c old then new else String c EmptyString) ++ replace old new s'
  end.

(** Lines 79-81: the chain of four replacements applied to one field. *)
Definition escape (s : string) : string :=
  replace "*" "\*" (replace "_" "\_" (replace "]" "\]" (replace "[" "\[" s))).

(** The chain applied to a value: anything but a [str] has no [replace]. *)
Definition escape_field (v : value) : result string :=
  match v with
  | VStr s => Ok (escape s)
  | _ => Raise AttributeError
  end.

Definition nl : string := String "010" EmptyString.

(** ** The provider *)

(** A response of the provider: its status code, and what
    [response.json()] does on its body: the value it returns, or the
    exception it raises ([JSONDecodeError] on text that is not JSON,
    [UnicodeDecodeError] on bytes that are no text, or another one). *)
Record Response : Type := {
  status_code : Z;
  body : result value
}.

(** httpx: a status is a success when it is 2xx; [raise_for_status]
    raises [HTTPStatusError] otherwise. *)
Definition is_success (status : Z) : bool :=
  (200 <=? status)%Z && (status <=? 299)%Z.

Definition raise_for_status (r : Response) : result unit :=
  if is_success (status_code r) then Ok tt else Raise HTTPStatusError.

Definition json (r : Response) : result value := body r.

(** Line 59: the classes named by the [except] clause. *)
Definition caught (e : exn) : bool :=
  match e with
  | RequestError | JSONDecodeError => true
  | _ => false
  end.

(** ** get_news *)

(** Lines 44-49. *)
Definition query_map : list (string * string) :=
  [ ("stocks", "stock market");
    ("ai", "artificial intelligence");
    ("crypto", "cryptocurrency");
    ("tech", "technology") ].

(** Line 50: [query_map.get(topic, topic)]. *)
Definition resolve_query (topic : string) : string :=
  match lookup topic query_map with
  | Some phrase => phrase
  | None => topic
  end.

Definition apology : string :=
  "⚠️ Sorry, I couldn't fetch the news right now. Please try again later.".

(** Line 66. *)
Definition no_articles (query : string) : string :=
  "⚠️ No recent articles found for '" ++ query ++ "'.".

(** Lines 83-85: the three lines appended for one article. *)
Definition article_block (title url description source : string) : string :=
  "• *[" ++ title ++ "](" ++ url ++ ")*" ++ nl
  ++ "  `" ++ description ++ "`" ++ nl
  ++ "  *Source:* " ++ source ++ nl ++ nl.

Section GetNews.

(** Python's [repr] of a float, a list or a dict: a builtin, reached only
    when an article's [url] is one of these. *)
Variable py_repr : value -> string.

(** The module global read from the environment: [None] or a [str]. *)
Variable NEWS_API_KEY : value.

(** [client.get(url)]: the response, or the exception it raises. *)
Variable client_get : string -> result Response.

(** [str(v)], as an f-string formats a value. *)
Definition py_str (v : value) : string :=
  match v with
  | VStr s => s
  | VNone => "None"
  | VBool true => "True"
  | VBool false => "False"
  | VInt n => NilZero.string_of_int (Z.to_int n)
  | _ => py_repr v
  end.

(** Line 52. *)
Definition request_url (query : string) : string :=
  "https://newsapi.org/v2/everything?q=" ++ query
  ++ "&language=en&sortBy=publishedAt&apiKey=" ++ py_str NEWS_API_KEY.

(** Lines 55-58, the body of the [try]. *)
Definition fetch (url : string) : result value :=
  response <- client_get url ;;
  _ <- raise_for_status response ;;
  json response.

(** Lines 70-85, the body of the [for] loop: the text after one more
    article. *)
Definition for_body (text : string) (article : value) : result string :=
  title <- get article "title" (VStr "No title") ;;
  url <- get article "url" (VStr "") ;;
  description <- get article "description" (VStr "No description available.") ;;
  source <- get article "source" (VDict []) ;;
  source <- get source "name" (VStr "Unknown Source") ;;
  let title := if truthy title then title else VStr "No title" in
  let description :=
    if truthy description then description
    else VStr "No description available." in
  let source := if truthy source then source else VStr "Unknown Source" in
  title <- escape_field title ;;
  description <- escape_field description ;;
  source <- escape_field source ;;
  let text := text ++ "• *[" ++ title ++ "](" ++ py_str url ++ ")*" ++ nl in
  let text := text ++ "  `" ++ description ++ "`" ++ nl in
  let text := text ++ "  *Source:* " ++ source ++ nl ++ nl in
  Ok text.

(** Lines 68-87. *)
Fixpoint for_loop (text : string) (articles : list value) : result string :=
  match articles with
  | [] => Ok text
  | article :: rest =>
      text <- for_body text article ;;
      for_loop text rest
  end.

(** Lines 63-87: what follows the [try] statement. *)
Definition render (query : string) (data : value) : result string :=
  articles <- get data "articles" (VList []) ;;
  articles <- slice5 articles ;;
  if negb (truthy articles) then Ok (no_articles query)
  else
    items <- iterate articles ;;
    for_loop "" items.

(** Lines 43-87. *)
Definition get_news (topic : string) : result string :=
  let query := resolve_query topic in
  let url := request_url query in
  match fetch url with
  | Raise e => if caught e then Ok apology else Raise e
  | Ok data => render query data
  end.

End GetNews.

(** ** Specification-side definitions *)

(** The four characters of the markup dialect. *)
Definition is_markup (c : ascii) : bool :=
  Ascii.eqb c "[" || Ascii.eqb c "]" || Ascii.eqb c "_" || Ascii.eqb c "*".

(** Escaping as the specification words it: a markup character is prefixed
    with a backslash, any other character is left as it is. *)
Definition escape_char (c : ascii) : string :=
  if is_markup c then String "\" (String c EmptyString) else String c EmptyString.

Fixpoint escape_chars (s : string) : string :=
  match s with
  | EmptyString => EmptyString
  | String c s' => escape_char c ++ escape_chars s'
  end.

(** A field that is absent, null or the empty string. *)
Definition is_missing (o : option value) : bool :=
  match o with
  | None | Some VNone => true
  | Some (VStr s) => String.eqb s ""
  | Some _ => false
  end.

(** The text of a field that is absent, null or a string, with the
    fallback where it is missing; no text for a field of another type. *)
Definition field_text (default : string) (o : option value) : option string :=
  match o with
  | None | Some VNone => Some default
  | Some (VStr s) => Some (if String.eqb s "" then default else s)
  | Some _ => None
  end.

(** The items of an article's [source]: those of the object when there is
    one, none when the key is absent. *)
Definition source_items (items src : list (string * value)) : Prop :=
  (lookup "source" items = None /\ src = [])
  \/ lookup "source" items = Some (VDict src).

(** The value formatted as the link target of an article. *)
Definition url_of (items : list (string * value)) : value :=
  match lookup "url" items with
  | Some v => v
  | None => VStr ""
  end.

(** Concatenation of the rendered blocks. *)
Definition join (blocks : list string) : string :=
  fold_right append "" blocks.

Definition is_category_key (topic : string) : bool :=
  match lookup topic query_map with
  | Some _ => true
  | None => false
  end.

(** ** Sample inputs *)

(** The samples hold no float, list or dict where [str] is taken, so [repr]
    is never reached on them. *)
Definition repr_unused : value -> string := fun _ => "".

Definition sample_key : value := VStr "K".

(** A provider that cannot be reached. *)
Definition unreachable : string -> result Response :=
  fun _ => Raise RequestError.

(** A provider that answers every request with one response. *)
Definition respond (status : Z) (b : result value) : string -> result Response :=
  fun _ => Ok {| status_code := status; body := b |}.

Definition sample_article (n : string) : list (string * value) :=
  [ ("source", VDict [("id", VNone); ("name", VStr "Wire")]);
    ("title", VStr ("Tesla [NEW] _MODEL_ *Y* " ++ n));
    ("description", VNone);
    ("url", VStr "https://example.org/a") ].

Definition null_source_article : list (string * value) :=
  [ ("source", VNone); ("title", VStr "t") ].

Definition articles_body (arts : list value) : result value :=
  Ok (VDict [("status", VStr "ok"); ("articles", VList arts)]).

Definition seven_articles : list value :=
  map (fun n => VDict (sample_article n)) ["1"; "2"; "3"; "4"; "5"; "6"; "7"].

(** ** The handlers *)

(** An inline keyboard is rows of buttons, each with its label and the
    data that pressing it delivers. *)
Record InlineKeyboardButton : Type := {
  label : string;
  callback_data : string
}.

Definition InlineKeyboardMarkup : Type := list (list InlineKeyboardButton).

(** Lines 22-29. *)
Definition get_main_keyboard : InlineKeyboardMarkup :=
  [ [ {| label := "📰 Tech News"; callback_data := "tech" |} ];
    [ {| label := "💹 Stock Market"; callback_data := "stocks" |} ];
    [ {| label := "🤖 AI Updates"; callback_data := "ai" |} ];
    [ {| label := "🪙 Crypto"; callback_data := "crypto" |} ] ].

(** Lines 31-33. *)
Definition get_back_keyboard : InlineKeyboardMarkup :=
  [ [ {| label := "⬅️ Back to Categories"; callback_data := "start" |} ] ].

(** The data the buttons of a keyboard deliver, row by row. *)
Definition keyboard_data (k : InlineKeyboardMarkup) : list string :=
  map callback_data (concat k).

(** The arguments of a call that shows text to the user; an argument that
    the call leaves out is [None], or [false] for the preview flag. *)
Record Outgoing : Type := {
  text : string;
  reply_markup : option InlineKeyboardMarkup;
  parse_mode : option string;
  disable_web_page_preview : bool
}.

(** The calls a handler makes on the messaging front end. *)
Inductive call : Type :=
| Answer
| EditMessageText (m : Outgoing)
| ReplyText (m : Outgoing).

(** A run of a handler: the calls it makes, in order, each taken to
    return, and the exception that ends it, if one does. *)
Definition run : Type := (list call * option exn)%type.

Section Handlers.

Variable py_repr : value -> string.
Variable NEWS_API_KEY : value.
Variable client_get : string -> result Response.

(** [s.capitalize()], a builtin. *)
Variable capitalize : string -> string.

(** Lines 35-41. *)
Definition start : run :=
  ( [ ReplyText
        {| text :=
             "👋 Welcome to *NewsPulse Bot!*" ++ nl ++ nl
             ++ "Choose a category below or simply **type any topic** (like 'NVIDIA' or 'Tesla') to search for news.";
           reply_markup := Some get_main_keyboard;
           parse_mode := Some "Markdown";
           disable_web_page_preview := false |} ],
    None ).

(** Lines 89-112; [data] is [update.callback_query.data]. *)
Definition handle_query (data : string) : run :=
  let topic := data in
  let topic_title := capitalize topic in
  if String.eqb topic "start" then
    ( [ Answer;
        EditMessageText
          {| text := "👋 Welcome back! Choose a category or type a topic to search 👇";
             reply_markup := Some get_main_keyboard;
             parse_mode := Some "Markdown";
             disable_web_page_preview := false |} ],
      None )
  else
    let fetching :=
      EditMessageText
        {| text := "⏳ Fetching latest *" ++ topic_title ++ "* news...";
           reply_markup := None;
           parse_mode := None;
           disable_web_page_preview := false |} in
    match get_news py_repr NEWS_API_KEY client_get topic with
    | Raise e => ([Answer; fetching], Some e)
    | Ok news_message =>
        ( [ Answer; fetching;
            EditMessageText
              {| text := "🗞 *Latest " ++ topic_title ++ " News:*" ++ nl ++ nl
                         ++ news_message;
                 reply_markup := Some get_back_keyboard;
                 parse_mode := Some "Markdown";
                 disable_web_page_preview := true |} ],
          None )
    end.

(** Lines 114-126; [search_query] is [update.message.text]. *)
Definition search_news (search_query : string) : run :=
  let topic_title := capitalize search_query in
  let searching :=
    ReplyText
      {| text := "⏳ Searching for news about *" ++ topic_title ++ "*...";
         reply_markup := None;
         parse_mode := Some "Markdown";
         disable_web_page_preview := false |} in
  match get_news py_repr NEWS_API_KEY client_get search_query with
  | Raise e => ([searching], Some e)
  | Ok news_message =>
      ( [ searching;
          ReplyText
            {| text := "🗞 *Search Results for " ++ topic_title ++ ":*" ++ nl ++ nl
                       ++ news_message;
               reply_markup := Some get_back_keyboard;
               parse_mode := Some "Markdown";
               disable_web_page_preview := true |} ],
        None )
  end.

End Handlers.

(** What [main] does with the two credentials: it prints an error and
    returns, or it builds the application with the token and polls. *)
Inductive startup : Type :=
| Refused (printed : string)
| Polling (token : value) (printed : string).

(** Lines 128-143. *)
Definition main (BOT_TOKEN NEWS_API_KEY : value) : startup :=
  if negb (truthy BOT_TOKEN) then
    Refused "Error: BOT_TOKEN variable is empty. Check your .env file."
  else if negb (truthy NEWS_API_KEY) then
    Refused "Error: NEWS_API_KEY variable is empty. Check your .env file."
  else Polling BOT_TOKEN "🤖 NewsPulse Bot is running...".

(** ** Further notions *)

(** What [os.getenv] returns: [None] or a [str]. *)
Definition is_env_value (v : value) : bool :=
  match v with
  | VNone | VStr _ => true
  | _ => false
  end.

Definition is_str (v : value) : bool :=
  match v with
  | VStr _ => true
  | _ => false
  end.

Fixpoint count_markup (s : string) : nat :=
  match s with
  | EmptyString => 0
  | String c s' => (if is_markup c then 1 else 0) + count_markup s'
  end.

(** A field the loop body can show: absent, falsy, or a [str]. *)
Definition showable (o : option value) : bool :=
  match o with
  | None => true
  | Some v => negb (truthy v) || is_str v
  end.

(** The text the loop body shows for a showable field. *)
Definition shown (default : string) (o : option value) : string :=
  match o with
  | Some (VStr s) => if String.eqb s "" then default else s
  | _ => default
  end.

(** An article the loop body can render: a dict whose [source], when it
    has one, is a dict, and whose title, description and source name are
    showable. *)
Definition renderable (article : value) : bool :=
  match article with
  | VDict items =>
      match lookup "source" items with
      | None =>
          showable (lookup "title" items) && showable (lookup "description" items)
      | Some (VDict src) =>
          showable (lookup "title" items) && showable (lookup "description" items)
          && showable (lookup "name" src)
      | Some _ => false
      end
  | _ => false
  end.

(** [str.capitalize] on ASCII text, for the samples. *)
Definition upper (c : ascii) : ascii :=
  let n := nat_of_ascii c in
  if (97 <=? n)%nat && (n <=? 122)%nat then ascii_of_nat (n - 32) else c.

Definition lower (c : ascii) : ascii :=
  let n := nat_of_ascii c in
  if (65 <=? n)%nat && (n <=? 90)%nat then ascii_of_nat (n + 32) else c.

Fixpoint lowercase (s : string) : string :=
  match s with
  | EmptyString => EmptyString
  | String c s' => String (lower c) (lowercase s')
  end.

Definition capitalize_ascii (s : string) : string :=
  match s with
  | EmptyString => EmptyString
  | String c s' => String (upper c) (lowercase s')
  end.

(** ** Strings *)

Lemma append_assoc (a b c : string) : (a ++ b) ++ c = a ++ (b ++ c).
Proof.
  induction a as [|x a IH]; simpl; [reflexivity|].
  now rewrite IH.
Qed.

Lemma append_nil_r (a : string) : a ++ "" = a.
Proof.
  induction a as [|x a IH]; simpl; [reflexivity|].
  now rewrite IH.
Qed.

Lemma replace_app old new (a b : string) :
  replace old new (a ++ b) = replace old new a ++ replace old new b.
Proof.
  induction a as [|x a IH]; simpl; [reflexivity|].
  now rewrite IH, append_assoc.
Qed.

Lemma escape_distr (a b : string) : escape (a ++ b) = escape a ++ escape b.
Proof.
  unfold escape.
  now rewrite !replace_app.
Qed.

Lemma escape_single (c : ascii) : escape (String c "") = escape_char c.
Proof.
  unfold escape, escape_char, is_markup.
  simpl replace at 4.
  destruct (Ascii.eqb_spec c "[") as [->|H1]; [reflexivity|].
  simpl replace at 3.
  destruct (Ascii.eqb_spec c "]") as [->|H2]; [reflexivity|].
  simpl replace at 2.
  destruct (Ascii.eqb_spec c "_") as [->|H3]; [reflexivity|].
  simpl.
  destruct (Ascii.eqb_spec c "*") as [->|H4]; reflexivity.
Qed.

Lemma escape_cons (c : ascii) (s : string) :
  escape (String c s) = escape_char c ++ escape s.
Proof.
  change (String c s) with (String c "" ++ s).
  now rewrite escape_distr, escape_single.
Qed.

Lemma escape_is_escape_chars (s : string) : escape s = escape_chars s.
Proof.
  induction s as [|c s IH]; [reflexivity|].
  now rewrite escape_cons, IH.
Qed.

Lemma join_app (xs ys : list string) : join (xs ++ ys) = join xs ++ join ys.
Proof.
  induction xs as [|x xs IH]; simpl; [reflexivity|].
  now rewrite IH, append_assoc.
Qed.

(** ** The query *)

Lemma resolve_query_other (topic : string) :
  is_category_key topic = false -> resolve_query topic = topic.
Proof.
  unfold is_category_key, resolve_query.
  now destruct (lookup topic query_map).
Qed.

Lemma is_category_key_spec (topic : string) :
  is_category_key topic = true
  <-> topic = "stocks" \/ topic = "ai" \/ topic = "crypto" \/ topic = "tech".
Proof.
  unfold is_category_key, query_map, lookup.
  rewrite !(String.eqb_sym _ topic).
  destruct (String.eqb_spec topic "stocks") as [->|H1]; [intuition|].
  destruct (String.eqb_spec topic "ai") as [->|H2]; [intuition|].
  destruct (String.eqb_spec topic "crypto") as [->|H3]; [intuition|].
  destruct (String.eqb_spec topic "tech") as [->|H4]; [intuition|].
  intuition discriminate.
Qed.

(** ** The loop *)

Section Rendering.

Variable py_repr : value -> string.

(** The loop body only ever appends to the text it is given. *)
Lemma for_body_text (text : string) (article : value) :
  for_body py_repr text article
  = (block <- for_body py_repr "" article ;; Ok (text ++ block)).
Proof.
  unfold for_body.
  repeat match goal with
         | |- context [bind ?c _] =>
             destruct c; cbn [bind]; try reflexivity
         end.
  f_equal.
  now rewrite !append_assoc.
Qed.

Lemma for_loop_blocks (articles : list value) (blocks : list string) :
  Forall2 (fun a b => for_body py_repr "" a = Ok b) articles blocks ->
  forall text, for_loop py_repr text articles = Ok (text ++ join blocks).
Proof.
  induction 1 as [|a b articles blocks Hab _ IH]; intros text; simpl.
  - now rewrite append_nil_r.
  - rewrite for_body_text, Hab.
    cbn [bind].
    now rewrite IH, append_assoc.
Qed.

(** A block always opens with the bullet. *)
Lemma for_body_bullet (article : value) (block : string) :
  for_body py_repr "" article = Ok block ->
  exists rest, block = "• *[" ++ rest.
Proof.
  unfold for_body.
  repeat match goal with
         | |- context [bind ?c _] =>
             destruct c; cbn [bind]; try discriminate
         end.
  intros [= <-].
  eexists.
  rewrite !append_assoc.
  reflexivity.
Qed.

Lemma fallback_text (default : string) (o : option value) (t : string) :
  field_text default o = Some t ->
  escape_field
    (if truthy (match o with Some v => v | None => VStr default end)
     then match o with Some v => v | None => VStr default end
     else VStr default)
  = Ok (escape t).
Proof.
  destruct o as [[| | | |s| |]|]; simpl; intros [= <-].
  - reflexivity.
  - now destruct (String.eqb s "").
  - now destruct (String.eqb default "").
Qed.

(** The block of an article whose three fields are absent, null or
    strings. *)
Lemma for_body_fields (items src : list (string * value)) (t d s : string) :
  source_items items src ->
  field_text "No title" (lookup "title" items) = Some t ->
  field_text "No description available." (lookup "description" items) = Some d ->
  field_text "Unknown Source" (lookup "name" src) = Some s ->
  for_body py_repr "" (VDict items)
  = Ok (article_block (escape t) (py_str py_repr (url_of items))
                      (escape d) (escape s)).
Proof.
  intros Hsrc Ht Hd Hs.
  assert (Hname :
    get (match lookup "source" items with Some v => v | None => VDict [] end)
        "name" (VStr "Unknown Source")
    = Ok (match lookup "name" src with
          | Some v => v | None => VStr "Unknown Source" end)).
  { destruct Hsrc as [[-> ->]| ->]; reflexivity. }
  unfold for_body.
  cbn [get bind].
  rewrite Hname.
  cbn [bind].
  rewrite (fallback_text _ _ _ Ht), (fallback_text _ _ _ Hd),
    (fallback_text _ _ _ Hs).
  cbn [bind].
  unfold article_block, url_of.
  f_equal.
  now rewrite !append_assoc.
Qed.

End Rendering.

(** ** get_news *)

Section Pipeline.

Variable py_repr : value -> string.
Variable NEWS_API_KEY : value.
Variable client_get : string -> result Response.

Lemma get_news_success (topic : string) (status : Z) (data : value) :
  client_get (request_url py_repr NEWS_API_KEY (resolve_query topic))
  = Ok {| status_code := status; body := Ok data |} ->
  is_success status = true ->
  get_news py_repr NEWS_API_KEY client_get topic
  = render py_repr (resolve_query topic) data.
Proof.
  intros Hget Hok.
  unfold get_news, fetch, raise_for_status, json.
  rewrite Hget.
  cbn [bind status_code body].
  now rewrite Hok.
Qed.

(** A status outside 2xx leaves [get_news] as an [HTTPStatusError]: the
    [except] clause does not name its class. *)
Lemma error_status_escapes (topic : string) (status : Z) (b : result value) :
  client_get (request_url py_repr NEWS_API_KEY (resolve_query topic))
  = Ok {| status_code := status; body := b |} ->
  is_success status = false ->
  get_news py_repr NEWS_API_KEY client_get topic = Raise HTTPStatusError.
Proof.
  intros Hget Hbad.
  unfold get_news, fetch, raise_for_status.
  rewrite Hget.
  cbn [bind status_code].
  now rewrite Hbad.
Qed.


(** C1, as amended: a transport failure, or a body under a success status
    that [response.json()] rejects with [JSONDecodeError], is caught inside
    [get_news], which then returns the fixed apology message. *)
Theorem fetch_failure_apology (topic : string) :
  (client_get (request_url py_repr NEWS_API_KEY (resolve_query topic))
   = Raise RequestError
   \/ exists status,
        is_success status = true
        /\ client_get (request_url py_repr NEWS_API_KEY (resolve_query topic))
           = Ok {| status_code := status; body := Raise JSONDecodeError |}) ->
  get_news py_repr NEWS_API_KEY client_get topic = Ok apology.
Proof.
  intros [Hget | (status & Hok & Hget)];
    unfold get_news, fetch, raise_for_status, json; rewrite Hget;
    cbn [bind status_code body].
  - reflexivity.
  - now rewrite Hok.
Qed.


(** C5: of the [n] articles of a response, the first five are rendered,
    each as one block opening with a bullet, in the order of the
    provider's list; the sixth and later ones are dropped. *)
Theorem first_five_in_order
    (topic : string) (status : Z) (items : list (string * value))
    (articles : list value) (blocks : list string) :
  client_get (request_url py_repr NEWS_API_KEY (resolve_query topic))
  = Ok {| status_code := status; body := Ok (VDict items) |} ->
  is_success status = true ->
  lookup "articles" items = Some (VList articles) ->
  Forall2 (fun a b => for_body py_repr "" a = Ok b) (firstn 5 articles) blocks ->
  get_news py_repr NEWS_API_KEY client_get topic
  = Ok (match articles with
        | [] => no_articles (resolve_query topic)
        | _ :: _ => join blocks
        end)
  /\ length blocks = Nat.min (length articles) 5
  /\ Forall (fun b => exists rest, b = "• *[" ++ rest) blocks.
Proof.
  intros Hget Hok Harts Hblocks.
  repeat split.
  - rewrite (get_news_success _ _ _ Hget Hok).
    unfold render.
    cbn [get bind].
    rewrite Harts.
    cbn [slice5 bind].
    destruct articles as [|a rest]; [reflexivity|].
    cbn [firstn truthy negb iterate bind] in *.
    now rewrite (for_loop_blocks _ _ _ Hblocks).
  - rewrite <- (Forall2_length Hblocks), length_firstn.
    apply Nat.min_comm.
  - clear Hget Harts.
    induction Hblocks as [|a b l l' Hab _ IH]; constructor.
    + exact (for_body_bullet _ _ _ Hab).
    + exact IH.
Qed.

(** C8: when the response holds no article, [get_news] returns the fixed
    message around the query, the query standing in it as it is; the
    message is not an article block. *)
Theorem no_articles_message
    (topic : string) (status : Z) (items : list (string * value)) :
  client_get (request_url py_repr NEWS_API_KEY (resolve_query topic))
  = Ok {| status_code := status; body := Ok (VDict items) |} ->
  is_success status = true ->
  lookup "articles" items = None \/ lookup "articles" items = Some (VList []) ->
  get_news py_repr NEWS_API_KEY client_get topic
  = Ok ("⚠️ No recent articles found for '" ++ resolve_query topic ++ "'.")
  /\ forall rest,
       "⚠️ No recent articles found for '" ++ resolve_query topic ++ "'."
       <> "• *[" ++ rest.
Proof.
  intros Hget Hok Harts.
  split.
  - rewrite (get_news_success _ _ _ Hget Hok).
    unfold render.
    cbn [get bind].
    now destruct Harts as [-> | ->].
  - intros rest.
    discriminate.
Qed.

(** C10: the address requested is the resolved query placed as it is
    between a fixed prefix and a fixed suffix, with no encoding.  The
    result of [get_news] depends on the provider through its answer at
    that address and at no other, and it does depend on that answer; [&]
    and [=] in a free-text topic reach the query-parameter region
    unchanged. *)
Theorem url_by_interpolation (topic : string) :
  (forall client client' : string -> result Response,
     client ("https://newsapi.org/v2/everything?q=" ++ resolve_query topic
             ++ "&language=en&sortBy=publishedAt&apiKey="
             ++ py_str py_repr NEWS_API_KEY)
     = client' ("https://newsapi.org/v2/everything?q=" ++ resolve_query topic
                ++ "&language=en&sortBy=publishedAt&apiKey="
                ++ py_str py_repr NEWS_API_KEY) ->
     get_news py_repr NEWS_API_KEY client topic
     = get_news py_repr NEWS_API_KEY client' topic)
  /\ (exists answer,
        get_news py_repr NEWS_API_KEY
          (fun u =>
             if String.eqb u
                  ("https://newsapi.org/v2/everything?q=" ++ resolve_query topic
                   ++ "&language=en&sortBy=publishedAt&apiKey="
                   ++ py_str py_repr NEWS_API_KEY)
             then answer
             else Raise RequestError)
          topic
        <> get_news py_repr NEWS_API_KEY (fun _ => Raise RequestError) topic)
  /\ request_url py_repr (VStr "K") (resolve_query "a&b=c")
     = "https://newsapi.org/v2/everything?q=a&b=c&language=en&sortBy=publishedAt&apiKey=K".
Proof.
  split; [|split].
  - intros client client' Hsame.
    unfold get_news, fetch, request_url.
    now rewrite Hsame.
  - exists (Ok {| status_code := 200; body := Ok (VDict []) |}).
    unfold get_news, fetch, request_url.
    rewrite String.eqb_refl.
    cbn.
    discriminate.
  - reflexivity.
Qed.

End Pipeline.

(** ** The fields of an article *)

(** C4: each of the four category keys resolves to its phrase, and any
    other topic, the empty one included, resolves to itself. *)
Theorem resolve_query_table :
  resolve_query "stocks" = "stock market"
  /\ resolve_query "ai" = "artificial intelligence"
  /\ resolve_query "crypto" = "cryptocurrency"
  /\ resolve_query "tech" = "technology"
  /\ resolve_query "" = ""
  /\ forall topic,
       topic <> "stocks" -> topic <> "ai" -> topic <> "crypto" -> topic <> "tech" ->
       resolve_query topic = topic.
Proof.
  repeat split.
  intros topic H1 H2 H3 H4.
  apply resolve_query_other.
  destruct (is_category_key topic) eqn:Hkey; [|reflexivity].
  apply is_category_key_spec in Hkey.
  intuition.
Qed.

(** C9: escaping distributes over concatenation, so the escape of a field
    is the concatenation of the escapes of its parts. *)
Theorem escape_homomorphism :
  (forall a b, escape (a ++ b) = escape a ++ escape b)
  /\ escape "" = ""
  /\ forall parts, escape (join parts) = join (map escape parts).
Proof.
  split; [exact escape_distr|].
  split; [reflexivity|].
  induction parts as [|p parts IH]; simpl; [reflexivity|].
  now rewrite escape_distr, IH.
Qed.

(** C6: the chain of replacements prefixes every [[], []], [_] and [*]
    with a backslash and leaves every other character as it is, and the
    block of an article is built from its title, its description and its
    source name each escaped on its own. *)
Theorem escape_markup
    (py_repr : value -> string)
    (items src : list (string * value)) (t d s : string) :
  source_items items src ->
  field_text "No title" (lookup "title" items) = Some t ->
  field_text "No description available." (lookup "description" items) = Some d ->
  field_text "Unknown Source" (lookup "name" src) = Some s ->
  (forall x, escape x = escape_chars x)
  /\ for_body py_repr "" (VDict items)
     = Ok (article_block (escape_chars t) (py_str py_repr (url_of items))
                         (escape_chars d) (escape_chars s)).
Proof.
  intros Hsrc Ht Hd Hs.
  split; [exact escape_is_escape_chars|].
  rewrite <- !escape_is_escape_chars.
  now apply for_body_fields with (src := src).
Qed.

(** C7: a title, a description or a source name that is absent, null or
    the empty string is rendered as its fallback text. *)
Theorem fallback_defaults
    (py_repr : value -> string)
    (items src : list (string * value)) (t d s : string) :
  source_items items src ->
  field_text "No title" (lookup "title" items) = Some t ->
  field_text "No description available." (lookup "description" items) = Some d ->
  field_text "Unknown Source" (lookup "name" src) = Some s ->
  (is_missing (lookup "title" items) = true ->
   for_body py_repr "" (VDict items)
   = Ok (article_block "No title" (py_str py_repr (url_of items))
                       (escape d) (escape s)))
  /\ (is_missing (lookup "description" items) = true ->
      for_body py_repr "" (VDict items)
      = Ok (article_block (escape t) (py_str py_repr (url_of items))
                          "No description available." (escape s)))
  /\ (is_missing (lookup "name" src) = true ->
      for_body py_repr "" (VDict items)
      = Ok (article_block (escape t) (py_str py_repr (url_of items))
                          (escape d) "Unknown Source")).
Proof.
  intros Hsrc Ht Hd Hs.
  rewrite (for_body_fields py_repr items src t d s Hsrc Ht Hd Hs).
  assert (Hmiss : forall default o x,
             field_text default o = Some x -> is_missing o = true -> x = default).
  { intros default [[| | | |v| |]|] x; simpl; intros [= <-] Hm;
      try discriminate; try reflexivity.
    now rewrite Hm. }
  repeat split; intros Hm.
  - now rewrite (Hmiss _ _ _ Ht Hm).
  - now rewrite (Hmiss _ _ _ Hd Hm).
  - now rewrite (Hmiss _ _ _ Hs Hm).
Qed.

(** ** The pipeline on sample inputs *)

(** C3: [get_news] raises where the specification promises a string.  A response
    with an error status leaves it as an [HTTPStatusError], and an article
    whose [source] is null as an [AttributeError]. *)
Theorem get_news_raises :
  get_news repr_unused sample_key
    (respond 500 (Ok (VDict [("status", VStr "error")]))) "tech"
  = Raise HTTPStatusError
  /\ get_news repr_unused sample_key
       (respond 200 (articles_body [VDict null_source_article])) "tech"
     = Raise AttributeError.
Proof.
  split; reflexivity.
Qed.

(** On a transport failure [get_news] answers with the apology, not with
    the message for an empty result; on an error status it answers with
    no message at all. *)
Lemma failure_is_not_no_articles :
  get_news repr_unused sample_key unreachable "tech" = Ok apology
  /\ get_news repr_unused sample_key unreachable "tech"
     <> Ok (no_articles (resolve_query "tech"))
  /\ get_news repr_unused sample_key (respond 500 (Raise JSONDecodeError)) "tech"
     = Raise HTTPStatusError.
Proof.
  repeat split.
  vm_compute.
  discriminate.
Qed.


(** ** The theorems at sample inputs *)

Lemma fetch_failure_apology_unreachable :
  unreachable (request_url repr_unused sample_key (resolve_query "tech"))
  = Raise RequestError
  /\ get_news repr_unused sample_key unreachable "tech" = Ok apology.
Proof.
  split; [reflexivity|].
  apply fetch_failure_apology.
  left.
  reflexivity.
Defined.


Lemma first_five_of_seven :
  get_news repr_unused sample_key (respond 200 (articles_body seven_articles)) "ai"
  = Ok (join (map (fun n =>
                     article_block ("Tesla \[NEW\] \_MODEL\_ \*Y\* " ++ n)
                       "https://example.org/a" "No description available." "Wire")
                  ["1"; "2"; "3"; "4"; "5"])).
Proof.
  refine (proj1 (first_five_in_order repr_unused sample_key
                   (respond 200 (articles_body seven_articles)) "ai" 200
                   [("status", VStr "ok"); ("articles", VList seven_articles)]
                   seven_articles
                   (map (fun n =>
                           article_block ("Tesla \[NEW\] \_MODEL\_ \*Y\* " ++ n)
                             "https://example.org/a" "No description available."
                             "Wire")
                        ["1"; "2"; "3"; "4"; "5"])
                   eq_refl eq_refl eq_refl _)).
  vm_compute.
  repeat constructor.
Defined.

Lemma no_articles_message_empty_list :
  get_news repr_unused sample_key (respond 200 (articles_body [])) "ai"
  = Ok "⚠️ No recent articles found for 'artificial intelligence'.".
Proof.
  refine (proj1 (no_articles_message repr_unused sample_key
                   (respond 200 (articles_body [])) "ai" 200
                   [("status", VStr "ok"); ("articles", VList [])]
                   eq_refl eq_refl _)).
  right.
  reflexivity.
Defined.

Lemma resolve_query_table_nvidia : resolve_query "NVIDIA" = "NVIDIA".
Proof.
  apply resolve_query_table; discriminate.
Defined.

Lemma escape_markup_tesla :
  for_body repr_unused "" (VDict (sample_article "1"))
  = Ok (article_block "Tesla \[NEW\] \_MODEL\_ \*Y\* 1" "https://example.org/a"
          "No description available." "Wire").
Proof.
  refine (proj2 (escape_markup repr_unused (sample_article "1")
                   [("id", VNone); ("name", VStr "Wire")]
                   "Tesla [NEW] _MODEL_ *Y* 1" "No description available." "Wire"
                   _ eq_refl eq_refl eq_refl)).
  right.
  reflexivity.
Defined.

Lemma fallback_defaults_null_description :
  is_missing (lookup "description" (sample_article "1")) = true
  /\ for_body repr_unused "" (VDict (sample_article "1"))
     = Ok (article_block (escape "Tesla [NEW] _MODEL_ *Y* 1") "https://example.org/a"
             "No description available." (escape "Wire")).
Proof.
  split; [reflexivity|].
  refine (proj1 (proj2 (fallback_defaults repr_unused (sample_article "1")
                          [("id", VNone); ("name", VStr "Wire")]
                          "Tesla [NEW] _MODEL_ *Y* 1" "No description available."
                          "Wire" _ eq_refl eq_refl eq_refl)) eq_refl).
  right.
  reflexivity.
Defined.

(** ** More on escaping *)

Lemma length_app (a b : string) :
  String.length (a ++ b) = String.length a + String.length b.
Proof.
  induction a as [|x a IH]; simpl; [reflexivity|].
  now rewrite IH.
Qed.

Lemma escape_char_length (c : ascii) :
  String.length (escape_char c) = 1 + (if is_markup c then 1 else 0).
Proof.
  unfold escape_char.
  now destruct (is_markup c).
Qed.

Lemma escape_length (s : string) :
  String.length (escape s) = String.length s + count_markup s.
Proof.
  rewrite escape_is_escape_chars.
  induction s as [|c s IH]; simpl; [reflexivity|].
  rewrite length_app, escape_char_length, IH.
  lia.
Qed.

Lemma count_markup_le (s : string) : count_markup s <= String.length s.
Proof.
  induction s as [|c s IH]; simpl; [lia|].
  destruct (is_markup c); lia.
Qed.

Lemma escape_clean (s : string) : count_markup s = 0 -> escape s = s.
Proof.
  rewrite escape_is_escape_chars.
  induction s as [|c s IH]; simpl; [reflexivity|].
  unfold escape_char.
  destruct (is_markup c); [discriminate|].
  intros H.
  simpl.
  now rewrite IH.
Qed.

(** What [escape] returns never opens with a bare markup character. *)
Lemma escape_chars_head (s : string) (c : ascii) (rest : string) :
  escape_chars s = String c rest -> is_markup c = false.
Proof.
  destruct s as [|x s]; simpl; [discriminate|].
  unfold escape_char.
  destruct (is_markup x) eqn:Hx; simpl; intros [= <- _].
  - reflexivity.
  - exact Hx.
Qed.

Lemma escape_chars_injective (a : string) :
  forall b, escape_chars a = escape_chars b -> a = b.
Proof.
  induction a as [|x a IH]; intros [|y b]; simpl; unfold escape_char.
  - reflexivity.
  - destruct (is_markup y); discriminate.
  - destruct (is_markup x); discriminate.
  - destruct (is_markup x) eqn:Hx, (is_markup y) eqn:Hy; simpl.
    + intros [= -> H].
      now rewrite (IH _ H).
    + intros [= <- H].
      symmetry in H.
      apply escape_chars_head in H.
      congruence.
    + intros [= -> H].
      apply escape_chars_head in H.
      congruence.
    + intros [= -> H].
      now rewrite (IH _ H).
Qed.

(** X1: a field comes out of the replace chain unchanged exactly when it
    holds none of the four characters; a backslash or a backtick in it is
    not touched. *)
Theorem escape_unchanged_iff (s : string) :
  escape s = s <-> count_markup s = 0.
Proof.
  split.
  - intros H.
    pose proof (escape_length s) as Hlen.
    rewrite H in Hlen.
    lia.
  - apply escape_clean.
Qed.

(** X2: the replace chain lengthens a field by one character for each
    markup character in it, so at most doubles it. *)
Theorem escape_length_bounds (s : string) :
  String.length (escape s) = String.length s + count_markup s
  /\ String.length s <= String.length (escape s) <= 2 * String.length s.
Proof.
  pose proof (escape_length s).
  pose proof (count_markup_le s).
  lia.
Qed.

(** X3: the replace chain loses nothing: two fields with the same escaped
    text are the same field. *)
Theorem escape_injective (a b : string) : escape a = escape b -> a = b.
Proof.
  rewrite !escape_is_escape_chars.
  apply escape_chars_injective.
Qed.

(** ** Which articles render *)

Lemma escape_field_fallback (default : string) (o : option value) :
  escape_field
    (if truthy (match o with Some v => v | None => VStr default end)
     then match o with Some v => v | None => VStr default end
     else VStr default)
  = if showable o then Ok (escape (shown default o)) else Raise AttributeError.
Proof.
  destruct o as [[|b|n|nz lit|s|l|items]|]; simpl.
  - reflexivity.
  - now destruct b.
  - now destruct (Z.eqb n 0).
  - now destruct nz.
  - rewrite orb_true_r.
    now destruct (String.eqb s "").
  - now destruct l.
  - now destruct items.
  - now destruct (String.eqb default "").
Qed.

Lemma for_body_cases (py_repr : value -> string) (article : value) :
  (renderable article = true /\ exists block, for_body py_repr "" article = Ok block)
  \/ (renderable article = false /\ for_body py_repr "" article = Raise AttributeError).
Proof.
  destruct article as [|b|n|nz lit|s|l|items];
    try (right; split; reflexivity).
  unfold for_body, renderable.
  cbn [get bind].
  destruct (lookup "source" items) as [[|b|n|nz lit|s|l|src]|];
    try (right; split; reflexivity).
  - cbn [get bind].
    rewrite !escape_field_fallback.
    destruct (showable (lookup "title" items)),
      (showable (lookup "description" items)),
      (showable (lookup "name" src));
      cbn [bind andb];
      first [ left; split; [reflexivity | eexists; reflexivity]
            | right; split; reflexivity ].
  - cbn [get bind lookup].
    rewrite !escape_field_fallback.
    destruct (showable (lookup "title" items)),
      (showable (lookup "description" items));
      cbn [bind andb];
      first [ left; split; [reflexivity | eexists; reflexivity]
            | right; split; reflexivity ].
Qed.

Lemma for_loop_cases (py_repr : value -> string) (articles : list value) :
  forall text,
    (forallb renderable articles = true
     /\ exists out, for_loop py_repr text articles = Ok (text ++ out))
    \/ (forallb renderable articles = false
        /\ for_loop py_repr text articles = Raise AttributeError).
Proof.
  induction articles as [|a l IH]; intros txt; cbn [forallb for_loop].
  - left.
    split; [reflexivity|].
    exists "".
    now rewrite append_nil_r.
  - rewrite for_body_text.
    destruct (for_body_cases py_repr a) as [[-> [b ->]] | [-> ->]];
      cbn [bind andb].
    + destruct (IH (txt ++ b)) as [[-> [out ->]] | [-> ->]].
      * left.
        split; [reflexivity|].
        exists (b ++ out).
        now rewrite append_assoc.
      * right.
        split; reflexivity.
    + right.
      split; reflexivity.
Qed.

Lemma render_raises (py_repr : value -> string) (query : string) (data : value)
    (e : exn) :
  render py_repr query data = Raise e ->
  e = AttributeError \/ e = TypeError \/ e = DictSliceError.
Proof.
  unfold render.
  destruct data as [|b|n|nz lit|s|l|items]; cbn [get bind];
    try (intros [= <-]; now left).
  destruct (match lookup "articles" items with
            | Some v => v
            | None => VList []
            end) as [|b|n|nz lit|s|l|its];
    cbn [slice5 bind]; try (intros [= <-]; now auto).
  - destruct (substring 0 5 s) as [|c s']; cbn [truthy String.eqb negb iterate bind].
    + discriminate.
    + cbn [list_ascii_of_string map for_loop].
      unfold for_body at 1.
      cbn [get bind].
      intros [= <-].
      now left.
  - destruct (firstn 5 l) as [|a l']; cbn [truthy negb iterate bind].
    + discriminate.
    + destruct (for_loop_cases py_repr (a :: l') "") as [[_ [out ->]] | [_ ->]].
      * discriminate.
      * intros [= <-].
        now left.
Qed.

Lemma for_loop_opens_with_bullet (py_repr : value -> string)
    (a : value) (l : list value) (out : string) :
  for_loop py_repr "" (a :: l) = Ok out -> exists rest, out = "• *[" ++ rest.
Proof.
  cbn [for_loop].
  destruct (for_body py_repr "" a) as [b|e] eqn:Hb; cbn [bind]; [|discriminate].
  destruct (for_body_bullet _ _ _ Hb) as [rest0 ->].
  destruct (for_loop_cases py_repr l ("• *[" ++ rest0)) as [[_ [o ->]] | [_ ->]];
    [|discriminate].
  intros [= <-].
  exists (rest0 ++ o).
  reflexivity.
Qed.

Lemma render_returns (py_repr : value -> string) (query : string) (data : value)
    (out : string) :
  render py_repr query data = Ok out ->
  out = no_articles query \/ exists rest, out = "• *[" ++ rest.
Proof.
  unfold render.
  destruct data as [|b|n|nz lit|s|l|items]; cbn [get bind]; try discriminate.
  destruct (match lookup "articles" items with
            | Some v => v
            | None => VList []
            end) as [|b|n|nz lit|s|l|its];
    cbn [slice5 bind]; try discriminate.
  - destruct (substring 0 5 s) as [|c s']; cbn [truthy String.eqb negb iterate bind].
    + intros [= <-].
      now left.
    + cbn [list_ascii_of_string map].
      intros H.
      right.
      exact (for_loop_opens_with_bullet _ _ _ _ H).
  - destruct (firstn 5 l) as [|a l']; cbn [truthy negb iterate bind].
    + intros [= <-].
      now left.
    + intros H.
      right.
      exact (for_loop_opens_with_bullet _ _ _ _ H).
Qed.

(** X4: the loop body renders an article exactly when it is a dict whose
    [source] is absent or a dict and whose title, description and source
    name are each absent, falsy or a [str]; on any other article it raises
    [AttributeError], and it never raises anything else. *)
Theorem for_body_renderable
    (py_repr : value -> string) (txt : string) (article : value) :
  (renderable article = true ->
   exists block, for_body py_repr txt article = Ok (txt ++ block))
  /\ (renderable article = false ->
      for_body py_repr txt article = Raise AttributeError).
Proof.
  rewrite for_body_text.
  destruct (for_body_cases py_repr article) as [[-> [b ->]] | [-> ->]];
    cbn [bind]; split; intros H; try discriminate.
  - now exists b.
  - reflexivity.
Qed.

Section Outcomes.

Variable py_repr : value -> string.
Variable NEWS_API_KEY : value.
Variable client_get : string -> result Response.

(** X5: on a 2xx response whose body holds a list of articles, [get_news]
    returns a string when each of the first five articles is renderable
    and raises [AttributeError] when one of them is not; the articles
    after the fifth have no part in it. *)
Theorem get_news_renderable
    (topic : string) (status : Z) (items : list (string * value))
    (articles : list value) :
  client_get (request_url py_repr NEWS_API_KEY (resolve_query topic))
  = Ok {| status_code := status; body := Ok (VDict items) |} ->
  is_success status = true ->
  lookup "articles" items = Some (VList articles) ->
  (forallb renderable (firstn 5 articles) = true ->
   exists out, get_news py_repr NEWS_API_KEY client_get topic = Ok out)
  /\ (forallb renderable (firstn 5 articles) = false ->
      get_news py_repr NEWS_API_KEY client_get topic = Raise AttributeError).
Proof.
  intros Hget Hok Harts.
  rewrite (get_news_success _ _ _ _ _ _ Hget Hok).
  unfold render.
  cbn [get bind].
  rewrite Harts.
  cbn [slice5 bind].
  destruct (firstn 5 articles) as [|a l]; cbn [truthy negb iterate bind].
  - split; [eexists; reflexivity | discriminate].
  - destruct (for_loop_cases py_repr (a :: l) "") as [[-> [out ->]] | [-> ->]];
      split; intros H; try discriminate.
    + eexists; reflexivity.
    + reflexivity.
Qed.

(** X6: no exception of a class named by the [except] clause leaves
    [get_news]: whatever the provider does, a [RequestError] or a
    [JSONDecodeError] is never what [get_news] raises. *)
Theorem caught_never_escapes (topic : string) (e : exn) :
  get_news py_repr NEWS_API_KEY client_get topic = Raise e ->
  e <> RequestError /\ e <> JSONDecodeError.
Proof.
  unfold get_news.
  destruct (fetch client_get _) as [data|e0].
  - intros H.
    destruct (render_raises _ _ _ _ H) as [-> | [-> | ->]]; split; discriminate.
  - destruct (caught e0) eqn:Hc; [discriminate|].
    intros [= <-].
    split; intros ->; discriminate.
Qed.

(** X7: a string returned by [get_news] is the apology, the message for an
    empty result, or text opening with an article bullet; it is never
    empty. *)
Theorem get_news_returns (topic : string) (out : string) :
  get_news py_repr NEWS_API_KEY client_get topic = Ok out ->
  (out = apology
   \/ out = no_articles (resolve_query topic)
   \/ exists rest, out = "• *[" ++ rest)
  /\ out <> "".
Proof.
  intros H.
  assert (Hcases : out = apology
                   \/ out = no_articles (resolve_query topic)
                   \/ exists rest, out = "• *[" ++ rest).
  { unfold get_news in H.
    destruct (fetch client_get _) as [data|e0].
    - destruct (render_returns _ _ _ _ H) as [-> | Hb]; auto.
    - destruct (caught e0); [|discriminate].
      injection H as <-.
      now left. }
  split; [exact Hcases|].
  destruct Hcases as [-> | [-> | [rest ->]]]; discriminate.
Qed.

End Outcomes.

(** ** Link targets and unexpected bodies *)

(** X8: the link target of an article is its [url] as it is: the empty
    text when the key is absent, the text [None] when it is null, and a
    string without any escaping. *)
Theorem url_as_it_is
    (py_repr : value -> string)
    (items src : list (string * value)) (t d s : string) :
  source_items items src ->
  field_text "No title" (lookup "title" items) = Some t ->
  field_text "No description available." (lookup "description" items) = Some d ->
  field_text "Unknown Source" (lookup "name" src) = Some s ->
  (lookup "url" items = None ->
   for_body py_repr "" (VDict items)
   = Ok (article_block (escape t) "" (escape d) (escape s)))
  /\ (lookup "url" items = Some VNone ->
      for_body py_repr "" (VDict items)
      = Ok (article_block (escape t) "None" (escape d) (escape s)))
  /\ (forall u,
        lookup "url" items = Some (VStr u) ->
        for_body py_repr "" (VDict items)
        = Ok (article_block (escape t) u (escape d) (escape s))).
Proof.
  intros Hsrc Ht Hd Hs.
  rewrite (for_body_fields py_repr items src t d s Hsrc Ht Hd Hs).
  unfold url_of.
  repeat split; [intros -> | intros -> | intros u ->]; reflexivity.
Qed.

Section Bodies.

Variable py_repr : value -> string.
Variable NEWS_API_KEY : value.
Variable client_get : string -> result Response.

Lemma get_news_transport_failure (topic : string) :
  client_get (request_url py_repr NEWS_API_KEY (resolve_query topic))
  = Raise RequestError ->
  get_news py_repr NEWS_API_KEY client_get topic = Ok apology.
Proof.
  intros Hget.
  unfold get_news, fetch.
  now rewrite Hget.
Qed.

(** X9: a 2xx response whose JSON body is not what the loop expects.  A
    body that is not an object raises [AttributeError]; an [articles]
    entry that is null, a bool or a number raises [TypeError], and one
    that is an object raises the exception of slicing a dict; an
    [articles] entry that is a string gives the message for an empty
    result when it is empty and [AttributeError] otherwise. *)
Theorem unexpected_body
    (topic : string) (status : Z) (data : value) :
  client_get (request_url py_repr NEWS_API_KEY (resolve_query topic))
  = Ok {| status_code := status; body := Ok data |} ->
  is_success status = true ->
  ((forall items, data <> VDict items) ->
   get_news py_repr NEWS_API_KEY client_get topic = Raise AttributeError)
  /\ (forall items v,
        data = VDict items ->
        lookup "articles" items = Some v ->
        (forall l, v <> VList l) ->
        (forall s, v <> VStr s) ->
        (forall its, v <> VDict its) ->
        get_news py_repr NEWS_API_KEY client_get topic = Raise TypeError)
  /\ (forall items its,
        data = VDict items ->
        lookup "articles" items = Some (VDict its) ->
        get_news py_repr NEWS_API_KEY client_get topic = Raise DictSliceError)
  /\ (forall items s,
        data = VDict items ->
        lookup "articles" items = Some (VStr s) ->
        get_news py_repr NEWS_API_KEY client_get topic
        = if String.eqb s "" then Ok (no_articles (resolve_query topic))
          else Raise AttributeError).
Proof.
  intros Hget Hok.
  rewrite (get_news_success _ _ _ _ _ _ Hget Hok).
  unfold render.
  repeat split.
  - intros Hno.
    destruct data as [|b|n|nz lit|s|l|items]; try reflexivity.
    now destruct (Hno items).
  - intros items v -> Hv Hlist Hstr Hdict.
    cbn [get bind].
    rewrite Hv.
    destruct v as [|b|n|nz lit|s|l|its]; try reflexivity.
    + now destruct (Hstr s).
    + now destruct (Hlist l).
    + now destruct (Hdict its).
  - intros items its -> Hv.
    cbn [get bind].
    now rewrite Hv.
  - intros items s -> Hv.
    cbn [get bind].
    rewrite Hv.
    destruct s as [|c s']; reflexivity.
Qed.

End Bodies.

(** ** The two screens *)

(** X10: the buttons of the category keyboard deliver exactly the keys of
    [query_map], and the button of the back keyboard delivers none of
    them. *)
Theorem keyboards_and_query_map :
  (forall d, In d (keyboard_data get_main_keyboard) <-> is_category_key d = true)
  /\ (forall d, In d (keyboard_data get_back_keyboard) -> is_category_key d = false).
Proof.
  split.
  - intros d.
    rewrite is_category_key_spec.
    simpl.
    intuition.
  - intros d [<- | []].
    reflexivity.
Qed.

Section Screens.

Variable py_repr : value -> string.
Variable NEWS_API_KEY : value.
Variable client_get : string -> result Response.
Variable capitalize : string -> string.

Lemma main_keyboard_not_start (d : string) :
  In d (keyboard_data get_main_keyboard) -> String.eqb d "start" = false.
Proof.
  simpl.
  intros [<- | [<- | [<- | [<- | []]]]]; reflexivity.
Qed.

(** X11: from the menu to the results and back.  Pressing a category
    button, when [get_news] returns, ends with an edit that shows the
    returned text under its header with the back keyboard; pressing the
    back button ends with an edit that shows the category keyboard, and
    consults the provider for nothing. *)
Theorem menu_round_trip :
  (forall d news,
     In d (keyboard_data get_main_keyboard) ->
     get_news py_repr NEWS_API_KEY client_get d = Ok news ->
     exists calls m,
       handle_query py_repr NEWS_API_KEY client_get capitalize d
       = ((calls ++ [EditMessageText m])%list, None)
       /\ text m = "🗞 *Latest " ++ capitalize d ++ " News:*" ++ nl ++ nl ++ news
       /\ reply_markup m = Some get_back_keyboard)
  /\ (forall d,
        In d (keyboard_data get_back_keyboard) ->
        exists calls m,
          handle_query py_repr NEWS_API_KEY client_get capitalize d
          = ((calls ++ [EditMessageText m])%list, None)
          /\ reply_markup m = Some get_main_keyboard
          /\ forall other_client,
               handle_query py_repr NEWS_API_KEY other_client capitalize d
               = handle_query py_repr NEWS_API_KEY client_get capitalize d).
Proof.
  split.
  - intros d news Hd Hnews.
    unfold handle_query.
    rewrite (main_keyboard_not_start d Hd), Hnews.
    eexists [Answer; _], _.
    repeat split.
  - intros d [<- | []].
    eexists [Answer], _.
    repeat split.
Qed.

(** X12: when the provider answers with a status outside 2xx, both handlers
    end in [HTTPStatusError] after their first message: the user is left
    with the waiting text, and is shown neither a result nor the back
    keyboard. *)
Theorem handlers_stop_on_error_status
    (topic : string) (status : Z) (b : result value) :
  client_get (request_url py_repr NEWS_API_KEY (resolve_query topic))
  = Ok {| status_code := status; body := b |} ->
  is_success status = false ->
  search_news py_repr NEWS_API_KEY client_get capitalize topic
  = ( [ ReplyText
          {| text := "⏳ Searching for news about *" ++ capitalize topic ++ "*...";
             reply_markup := None;
             parse_mode := Some "Markdown";
             disable_web_page_preview := false |} ],
      Some HTTPStatusError )
  /\ (topic <> "start" ->
      handle_query py_repr NEWS_API_KEY client_get capitalize topic
      = ( [ Answer;
            EditMessageText
              {| text := "⏳ Fetching latest *" ++ capitalize topic ++ "* news...";
                 reply_markup := None;
                 parse_mode := None;
                 disable_web_page_preview := false |} ],
          Some HTTPStatusError )).
Proof.
  intros Hget Hbad.
  pose proof (error_status_escapes _ _ _ _ _ _ Hget Hbad) as Hnews.
  split.
  - unfold search_news.
    now rewrite Hnews.
  - intros Hne.
    unfold handle_query.
    apply String.eqb_neq in Hne.
    now rewrite Hne, Hnews.
Qed.

(** X13: when the provider cannot be reached, both handlers run to their
    end: the last message is the apology under the handler's header, with
    the back keyboard. *)
Theorem handlers_apologise (topic : string) :
  client_get (request_url py_repr NEWS_API_KEY (resolve_query topic))
  = Raise RequestError ->
  (exists first,
     search_news py_repr NEWS_API_KEY client_get capitalize topic
     = ( [ first;
           ReplyText
             {| text := "🗞 *Search Results for " ++ capitalize topic ++ ":*"
                        ++ nl ++ nl ++ apology;
                reply_markup := Some get_back_keyboard;
                parse_mode := Some "Markdown";
                disable_web_page_preview := true |} ],
         None ))
  /\ (topic <> "start" ->
      exists first,
        handle_query py_repr NEWS_API_KEY client_get capitalize topic
        = ( [ Answer; first;
              EditMessageText
                {| text := "🗞 *Latest " ++ capitalize topic ++ " News:*"
                           ++ nl ++ nl ++ apology;
                   reply_markup := Some get_back_keyboard;
                   parse_mode := Some "Markdown";
                   disable_web_page_preview := true |} ],
            None )).
Proof.
  intros Hget.
  pose proof (get_news_transport_failure _ _ _ _ Hget) as Hnews.
  split.
  - unfold search_news.
    rewrite Hnews.
    eexists.
    reflexivity.
  - intros Hne.
    unfold handle_query.
    apply String.eqb_neq in Hne.
    rewrite Hne, Hnews.
    eexists.
    reflexivity.
Qed.

End Screens.

(** ** Startup *)

(** X14: [main] goes on to poll exactly when both credentials are
    non-empty strings; it then builds the application with the token, and
    every address [get_news] requests ends with the key itself. *)
Theorem main_polls_with_credentials (BOT_TOKEN NEWS_API_KEY : value) :
  is_env_value BOT_TOKEN = true ->
  is_env_value NEWS_API_KEY = true ->
  (forall a b,
     BOT_TOKEN = VStr a -> NEWS_API_KEY = VStr b -> a <> "" -> b <> "" ->
     main BOT_TOKEN NEWS_API_KEY = Polling BOT_TOKEN "🤖 NewsPulse Bot is running...")
  /\ (forall token printed,
        main BOT_TOKEN NEWS_API_KEY = Polling token printed ->
        exists a b,
          BOT_TOKEN = VStr a /\ NEWS_API_KEY = VStr b /\ a <> "" /\ b <> ""
          /\ token = BOT_TOKEN
          /\ forall py_repr query,
               request_url py_repr NEWS_API_KEY query
               = "https://newsapi.org/v2/everything?q=" ++ query
                 ++ "&language=en&sortBy=publishedAt&apiKey=" ++ b).
Proof.
  intros Ht Hk.
  split.
  - intros a b -> -> Ha Hb.
    unfold main.
    cbn [truthy].
    apply String.eqb_neq in Ha, Hb.
    now rewrite Ha, Hb.
  - intros token printed.
    unfold main.
    destruct BOT_TOKEN as [| | | |a| |]; try discriminate Ht.
    + cbn [truthy negb].
      discriminate.
    + cbn [truthy].
      destruct (String.eqb_spec a "") as [->|Ha]; cbn [negb]; [discriminate|].
      destruct NEWS_API_KEY as [| | | |b| |]; try discriminate Hk;
        cbn [truthy negb]; [discriminate|].
      destruct (String.eqb_spec b "") as [->|Hb]; cbn [negb]; [discriminate|].
      intros [= <- _].
      exists a, b.
      repeat split; assumption.
Qed.

(** ** The further theorems at sample inputs *)

Lemma escape_unchanged_backslash : escape "a\b`c" = "a\b`c".
Proof.
  apply escape_unchanged_iff.
  reflexivity.
Defined.

Lemma escape_injective_sample : "a_b" = "a_b".
Proof.
  apply escape_injective.
  reflexivity.
Defined.

Lemma for_body_renderable_samples :
  (exists block,
     for_body repr_unused "> " (VDict (sample_article "1")) = Ok ("> " ++ block))
  /\ for_body repr_unused "> " (VDict null_source_article) = Raise AttributeError.
Proof.
  split.
  - apply for_body_renderable.
    reflexivity.
  - apply for_body_renderable.
    reflexivity.
Defined.

Lemma get_news_renderable_samples :
  (exists out,
     get_news repr_unused sample_key (respond 200 (articles_body seven_articles)) "ai"
     = Ok out)
  /\ get_news repr_unused sample_key
       (respond 200 (articles_body [VDict null_source_article])) "ai"
     = Raise AttributeError.
Proof.
  split.
  - refine (proj1 (get_news_renderable repr_unused sample_key
                     (respond 200 (articles_body seven_articles)) "ai" 200
                     [("status", VStr "ok"); ("articles", VList seven_articles)]
                     seven_articles eq_refl eq_refl eq_refl) eq_refl).
  - refine (proj2 (get_news_renderable repr_unused sample_key
                     (respond 200 (articles_body [VDict null_source_article]))
                     "ai" 200
                     [("status", VStr "ok");
                      ("articles", VList [VDict null_source_article])]
                     [VDict null_source_article] eq_refl eq_refl eq_refl) eq_refl).
Defined.

Lemma caught_never_escapes_status :
  HTTPStatusError <> RequestError /\ HTTPStatusError <> JSONDecodeError.
Proof.
  apply (caught_never_escapes repr_unused sample_key (respond 500 (Raise JSONDecodeError)) "tech").
  reflexivity.
Defined.

Lemma get_news_returns_unreachable :
  (apology = apology
   \/ apology = no_articles (resolve_query "tech")
   \/ exists rest, apology = "• *[" ++ rest)
  /\ apology <> "".
Proof.
  apply (get_news_returns repr_unused sample_key unreachable "tech").
  reflexivity.
Defined.

Lemma url_as_it_is_sample :
  for_body repr_unused "" (VDict (sample_article "1"))
  = Ok (article_block (escape "Tesla [NEW] _MODEL_ *Y* 1") "https://example.org/a"
          (escape "No description available.") (escape "Wire")).
Proof.
  refine (proj2 (proj2 (url_as_it_is repr_unused (sample_article "1")
                          [("id", VNone); ("name", VStr "Wire")]
                          "Tesla [NEW] _MODEL_ *Y* 1" "No description available."
                          "Wire" _ eq_refl eq_refl eq_refl))
            "https://example.org/a" eq_refl).
  right.
  reflexivity.
Defined.

Lemma unexpected_body_list :
  get_news repr_unused sample_key (respond 200 (Ok (VList []))) "tech"
  = Raise AttributeError.
Proof.
  refine (proj1 (unexpected_body repr_unused sample_key
                   (respond 200 (Ok (VList []))) "tech" 200 (VList [])
                   eq_refl eq_refl) _).
  discriminate.
Defined.

Lemma keyboards_and_query_map_ai : In "ai" (keyboard_data get_main_keyboard).
Proof.
  apply keyboards_and_query_map.
  reflexivity.
Defined.

Lemma menu_round_trip_back :
  exists calls m,
    handle_query repr_unused sample_key unreachable capitalize_ascii "start"
    = ((calls ++ [EditMessageText m])%list, None)
    /\ reply_markup m = Some get_main_keyboard
    /\ forall other_client,
         handle_query repr_unused sample_key other_client capitalize_ascii "start"
         = handle_query repr_unused sample_key unreachable capitalize_ascii "start".
Proof.
  apply menu_round_trip.
  left.
  reflexivity.
Defined.

Lemma handlers_stop_on_error_status_500 :
  search_news repr_unused sample_key (respond 500 (Raise JSONDecodeError)) capitalize_ascii "tesla"
  = ( [ ReplyText
          {| text := "⏳ Searching for news about *Tesla*...";
             reply_markup := None;
             parse_mode := Some "Markdown";
             disable_web_page_preview := false |} ],
      Some HTTPStatusError ).
Proof.
  refine (proj1 (handlers_stop_on_error_status repr_unused sample_key
                   (respond 500 (Raise JSONDecodeError)) capitalize_ascii "tesla" 500 (Raise JSONDecodeError)
                   eq_refl eq_refl)).
Defined.

Lemma handlers_apologise_unreachable :
  exists first,
    handle_query repr_unused sample_key unreachable capitalize_ascii "tech"
    = ( [ Answer; first;
          EditMessageText
            {| text := "🗞 *Latest Tech News:*" ++ nl ++ nl ++ apology;
               reply_markup := Some get_back_keyboard;
               parse_mode := Some "Markdown";
               disable_web_page_preview := true |} ],
        None ).
Proof.
  refine (proj2 (handlers_apologise repr_unused sample_key unreachable
                   capitalize_ascii "tech" eq_refl) _).
  discriminate.
Defined.

Lemma main_polls_with_credentials_sample :
  main (VStr "T") (VStr "K") = Polling (VStr "T") "🤖 NewsPulse Bot is running...".
Proof.
  refine (proj1 (main_polls_with_credentials (VStr "T") (VStr "K") eq_refl eq_refl)
            "T" "K" eq_refl eq_refl _ _);
    discriminate.
Defined.

Lemma url_by_interpolation_ampersand :
  get_news repr_unused sample_key (respond 200 (articles_body [])) "a&b=c"
  = get_news repr_unused sample_key
      (fun u =>
         if String.eqb u
              "https://newsapi.org/v2/everything?q=a&b=c&language=en&sortBy=publishedAt&apiKey=K"
         then Ok {| status_code := 200; body := articles_body [] |}
         else Raise RequestError)
      "a&b=c".
Proof.
  apply (proj1 (url_by_interpolation repr_unused sample_key "a&b=c")).
  reflexivity.
Defined.

(** ** Bodies that [response.json()] rejects *)

(** X15: under a 2xx status, an exception that [response.json()] raises
    and that the [except] clause does not name leaves [get_news] as it is;
    a [UnicodeDecodeError], raised on a body that is no text, is one. *)
Theorem rejected_body_escapes
    (py_repr : value -> string) (NEWS_API_KEY : value)
    (client_get : string -> result Response)
    (topic : string) (status : Z) (e : exn) :
  client_get (request_url py_repr NEWS_API_KEY (resolve_query topic))
  = Ok {| status_code := status; body := Raise e |} ->
  is_success status = true ->
  (caught e = false ->
   get_news py_repr NEWS_API_KEY client_get topic = Raise e)
  /\ (e = UnicodeDecodeError ->
      get_news py_repr NEWS_API_KEY client_get topic = Raise UnicodeDecodeError).
Proof.
  intros Hget Hok.
  assert (Hfetch : fetch client_get
                     (request_url py_repr NEWS_API_KEY (resolve_query topic))
                   = Raise e).
  { unfold fetch, raise_for_status, json.
    rewrite Hget.
    cbn [bind status_code body].
    now rewrite Hok. }
  unfold get_news.
  rewrite Hfetch.
  split.
  - now intros ->.
  - now intros ->.
Qed.

Lemma rejected_body_escapes_unicode :
  get_news repr_unused sample_key (respond 200 (Raise UnicodeDecodeError)) "tech"
  = Raise UnicodeDecodeError.
Proof.
  refine (proj2 (rejected_body_escapes repr_unused sample_key
                   (respond 200 (Raise UnicodeDecodeError)) "tech" 200
                   UnicodeDecodeError eq_refl eq_refl) eq_refl).
Defined.
